(** * countersyncd: the process coordinator of [src/countersyncd/src/main.rs]

    A shallow embedding of [main] and [init_logging].  [main] is written in
    a small writer monad with early return: the trace records what the
    coordinator itself does (log records, channel creation, actor
    construction, dropping a receiver, spawning and joining tasks), and the
    final value is the [Result] that [main] returns.

    What the spawned tasks do is outside [main]: each task body is
    [info!(..); XActor::run(x).await; info!(..)], so the value [run]
    returns is discarded and the task's [JoinHandle] yields [Ok(())] when
    [run] returns and a [JoinError] when the task panics.  The outcome of
    every actor's run loop is therefore an input of the model ([Env]). *)

From Stdlib Require Import String List Bool Arith NArith Lia.
Import ListNotations.
Open Scope string_scope.

(** ** Rust's [Result] *)

Inductive result (A E : Type) : Type :=
| Ok (a : A)
| Err (e : E).
Arguments Ok {A E} a.
Arguments Err {A E} e.

(** ** Data of [main] *)

(** The four actors. *)
Inductive actor : Type :=
| Netlink
| Ipfix
| Swss
| Reporter.

Definition actor_eqb (a b : actor) : bool :=
  match a, b with
  | Netlink, Netlink | Ipfix, Ipfix | Swss, Swss | Reporter, Reporter => true
  | _, _ => false
  end.

(** The four channels created by [main] (lines 135-138). *)
Inductive chan_id : Type :=
| CommandCh
| SocketCh
| TemplateCh
| SaiStatsCh.

Definition chan_id_eqb (a b : chan_id) : bool :=
  match a, b with
  | CommandCh, CommandCh | SocketCh, SocketCh
  | TemplateCh, TemplateCh | SaiStatsCh, SaiStatsCh => true
  | _, _ => false
  end.

(** [log::LevelFilter], the values [init_logging] can select. *)
Inductive LevelFilter : Type :=
| LTrace
| LDebug
| LInfo
| LWarn
| LError.

(** The two log formats of [init_logging]. *)
Inductive LogFormat : Type :=
| FormatSimple
| FormatFull.

(** [Args] (clap): [stats_interval : u64], [max_stats_per_report : u32]. *)
Record Args : Type := mkArgs {
  enable_stats : bool;
  stats_interval : N;
  detailed_stats : bool;
  max_stats_per_report : N;
  log_level : string;
  log_format : string
}.

(** [StatsReporterConfig]; [Duration::from_secs] is kept as seconds and
    [usize] as [N] (the [u32 as usize] cast is lossless). *)
Record StatsReporterConfig : Type := mkStatsReporterConfig {
  interval : N;
  detailed : bool;
  cfg_max_stats_per_report : option N
}.

(** The outcome of an actor's task body: [run] returned, or the task
    panicked with some payload. *)
Inductive run_outcome : Type :=
| RunReturned
| RunPanicked (payload : string).

(** [tokio::task::JoinError]: it names the task that failed. *)
Record JoinError : Type := mkJoinError {
  je_task : actor;
  je_payload : string
}.

(** The error [main] returns ([Box<dyn Error>]): either the error of
    [SwssActor::new] or the [JoinError] of a task. *)
Inductive main_error : Type :=
| ErrSwssInit (e : string)
| ErrJoin (e : JoinError).

(** What the coordinator depends on but does not compute itself. *)
Record Env : Type := mkEnv {
  genl_family_group : string * string;     (** [get_genl_family_group()] *)
  swss_new : result unit string;            (** [SwssActor::new(..)] *)
  outcome : actor -> run_outcome            (** each spawned task *)
}.

(** [handle.await] for the task running actor [a]. *)
Definition join_result (env : Env) (a : actor) : result unit JoinError :=
  match outcome env a with
  | RunReturned => Ok tt
  | RunPanicked p => Err (mkJoinError a p)
  end.

(** Log messages of [main]. *)
Inductive message : Type :=
| MStarting
| MStatsEnabled (b : bool)
| MStatsInterval (n : N)
| MDetailedStats (b : bool)
| MMaxStats (n : N)
| MUsingFamily (family group : string)
| MSwssInitFailed (e : string)
| MStartingTasks
| MReporterDisabled
| MAllOk
| MAllOkNoStats
| MActorFailed (a : actor) (e : JoinError).

(** Observable steps of [main]. *)
Inductive event : Type :=
| EvEprint (what : string) (value : string)
| EvLoggerInit (lvl : LevelFilter) (fmt : LogFormat)
| EvLog (lvl : LevelFilter) (m : message)
| EvChannel (c : chan_id) (capacity : nat)
| EvNewNetlink (family group : string)
| EvNewIpfix
| EvNewSwss
| EvNewReporter (cfg : StatsReporterConfig)
| EvAddRecipient (a : actor) (c : chan_id)
| EvDropReceiver (c : chan_id)
| EvSpawn (a : actor)
| EvJoin (a : actor).

(** ** A writer monad with early [return] *)

Inductive step (A : Type) : Type :=
| Cont (a : A)
| Return (r : result unit main_error).
Arguments Cont {A} a.
Arguments Return {A} r.

Definition M (A : Type) : Type := list event * step A.

Definition ret {A} (a : A) : M A := ([], Cont a).

Definition bind {A B} (m : M A) (f : A -> M B) : M B :=
  match m with
  | (tr, Cont a) => let (tr', r) := f a in ((tr ++ tr')%list, r)
  | (tr, Return r) => (tr, Return r)
  end.

Definition emit (e : event) : M unit := ([e], Cont tt).

Definition early_return {A} (r : result unit main_error) : M A := ([], Return r).

Notation "x <- m ;; k" := (bind m (fun x => k))
  (at level 61, m at next level, right associativity).
Notation "m ;;; k" := (bind m (fun _ : unit => k))
  (at level 61, right associativity).

Definition info (m : message) : M unit := emit (EvLog LInfo m).
Definition error (m : message) : M unit := emit (EvLog LError m).

(** ** [init_logging] and [main]

    [str::to_lowercase] performs Unicode case mapping; it is a parameter
    of the development. *)

Section Coordinator.

Variable to_lowercase : string -> string.

(** [init_logging] (lines 20-78). *)
Definition init_logging (log_level log_format : string) : M unit :=
  lvl <- (if String.eqb (to_lowercase log_level) "trace" then ret LTrace
    else if String.eqb (to_lowercase log_level) "debug" then ret LDebug
    else if String.eqb (to_lowercase log_level) "info" then ret LInfo
    else if String.eqb (to_lowercase log_level) "warn" then ret LWarn
    else if String.eqb (to_lowercase log_level) "error" then ret LError
    else emit (EvEprint "Invalid log level" log_level) ;;; ret LInfo) ;;
  fmt <- (if String.eqb (to_lowercase log_format) "simple" then ret FormatSimple
    else if String.eqb (to_lowercase log_format) "full" then ret FormatFull
    else emit (EvEprint "Invalid log format" log_format) ;;; ret FormatFull) ;;
  emit (EvLoggerInit lvl fmt).

(** The reporter configuration built at lines 162-170. *)
Definition reporter_config (args : Args) : StatsReporterConfig :=
  {| interval := stats_interval args;
     detailed := detailed_stats args;
     cfg_max_stats_per_report :=
       if N.eqb (max_stats_per_report args) 0 then None
       else Some (max_stats_per_report args) |}.

Definition channel (c : chan_id) (capacity : nat) : M unit :=
  emit (EvChannel c capacity).

Definition spawn (a : actor) : M actor := emit (EvSpawn a) ;;; ret a.

Definition join (env : Env) (h : actor) : M (result unit JoinError) :=
  emit (EvJoin h) ;;; ret (join_result env h).

(** [main] after [init_logging] (lines 126-264). *)
Definition coordinator_body (args : Args) (env : Env) : M (result unit main_error) :=
  info MStarting ;;;
  info (MStatsEnabled (enable_stats args)) ;;;
  (if enable_stats args then
     info (MStatsInterval (stats_interval args)) ;;;
     info (MDetailedStats (detailed_stats args)) ;;;
     info (MMaxStats (max_stats_per_report args))
   else ret tt) ;;;
  channel CommandCh 1 ;;;
  channel SocketCh 1 ;;;
  channel TemplateCh 1 ;;;
  channel SaiStatsCh 100 ;;;
  let (family, group) := genl_family_group env in
  info (MUsingFamily family group) ;;;
  emit (EvNewNetlink family group) ;;;
  emit (EvAddRecipient Netlink SocketCh) ;;;
  emit EvNewIpfix ;;;
  emit (EvAddRecipient Ipfix SaiStatsCh) ;;;
  (match swss_new env with
   | Ok _ => emit EvNewSwss
   | Err e => error (MSwssInitFailed e) ;;; early_return (Err (ErrSwssInit e))
   end) ;;;
  stats_reporter <- (if enable_stats args then
      let reporter_cfg := reporter_config args in
      emit (EvNewReporter reporter_cfg) ;;; ret (Some reporter_cfg)
    else
      emit (EvDropReceiver SaiStatsCh) ;;; ret None) ;;
  info MStartingTasks ;;;
  netlink_handle <- spawn Netlink ;;
  ipfix_handle <- spawn Ipfix ;;
  swss_handle <- spawn Swss ;;
  reporter_handle <- (match stats_reporter with
      | Some _ => h <- spawn Reporter ;; ret (Some h)
      | None => info MReporterDisabled ;;; ret None
      end) ;;
  netlink_result <- join env netlink_handle ;;
  ipfix_result <- join env ipfix_handle ;;
  swss_result <- join env swss_handle ;;
  reporter_result <- (match reporter_handle with
      | Some h => r <- join env h ;; ret (Some r)
      | None => ret None
      end) ;;
  match reporter_result with
  | Some reporter_result =>
      match netlink_result, ipfix_result, swss_result, reporter_result with
      | Ok _, Ok _, Ok _, Ok _ => info MAllOk ;;; ret (Ok tt)
      | Err e, _, _, _ => error (MActorFailed Netlink e) ;;; ret (Err (ErrJoin e))
      | _, Err e, _, _ => error (MActorFailed Ipfix e) ;;; ret (Err (ErrJoin e))
      | _, _, Err e, _ => error (MActorFailed Swss e) ;;; ret (Err (ErrJoin e))
      | _, _, _, Err e => error (MActorFailed Reporter e) ;;; ret (Err (ErrJoin e))
      end
  | None =>
      match netlink_result, ipfix_result, swss_result with
      | Ok _, Ok _, Ok _ => info MAllOkNoStats ;;; ret (Ok tt)
      | Err e, _, _ => error (MActorFailed Netlink e) ;;; ret (Err (ErrJoin e))
      | _, Err e, _ => error (MActorFailed Ipfix e) ;;; ret (Err (ErrJoin e))
      | _, _, Err e => error (MActorFailed Swss e) ;;; ret (Err (ErrJoin e))
      end
  end.

(** [main] (lines 119-265). *)
Definition main_body (args : Args) (env : Env) : M (result unit main_error) :=
  init_logging (log_level args) (log_format args) ;;;
  coordinator_body args env.

(** Running [main]: its trace and the value it returns. *)
Definition run_main (args : Args) (env : Env) : list event * result unit main_error :=
  match main_body args env with
  | (tr, Cont r) => (tr, r)
  | (tr, Return r) => (tr, r)
  end.

Definition main_trace (args : Args) (env : Env) : list event := fst (run_main args env).
Definition main_result (args : Args) (env : Env) : result unit main_error :=
  snd (run_main args env).

End Coordinator.

(** The part of a run that follows [init_logging]. *)
Definition coordinator_run (args : Args) (env : Env) : list event * result unit main_error :=
  match coordinator_body args env with
  | (tr, Cont r) => (tr, r)
  | (tr, Return r) => (tr, r)
  end.

(** The actors whose tasks [main] spawns, in the order of its final
    [match] (lines 222-264). *)
Definition spawned_actors (args : Args) : list actor :=
  [Netlink; Ipfix; Swss] ++ (if enable_stats args then [Reporter] else []).

Definition priority (a : actor) : nat :=
  match a with
  | Netlink => 0
  | Ipfix => 1
  | Swss => 2
  | Reporter => 3
  end.

(** The channels created in a trace, with their capacities. *)
Definition channels_created (tr : list event) : list (chan_id * nat) :=
  flat_map (fun e => match e with EvChannel c n => [(c, n)] | _ => [] end) tr.

(** ** Bounded [tokio::sync::mpsc] channels, as [main] uses them

    [channel(n)] creates a queue of capacity [n]; dropping the receiver
    closes it.  [Sender::send] fails at once with [SendError(m)] on a closed
    channel, enqueues when there is room, and otherwise waits. *)

Section Channel.

Variable Msg : Type.

Record chan : Type := mkChan {
  capacity : nat;
  queue : list Msg;
  rx_open : bool
}.

Inductive send_outcome : Type :=
| Sent
| SendError (m : Msg)
| Pending.

Definition send (ch : chan) (m : Msg) : send_outcome * chan :=
  if negb (rx_open ch) then (SendError m, ch)
  else if Nat.ltb (length (queue ch)) (capacity ch)
  then (Sent, mkChan (capacity ch) (queue ch ++ [m]) true)
  else (Pending, ch).

(** A sequence of sends by one producer with no receive in between; a
    [Pending] send suspends the producer, so nothing after it is sent. *)
Fixpoint send_all (ch : chan) (ms : list Msg) : list send_outcome :=
  match ms with
  | [] => []
  | m :: rest =>
      let (o, ch') := send ch m in
      match o with
      | Pending => [Pending]
      | _ => o :: send_all ch' rest
      end
  end.

End Channel.

Arguments mkChan {Msg} capacity queue rx_open.
Arguments Sent {Msg}.
Arguments SendError {Msg} m.
Arguments Pending {Msg}.

(** The capacity of channel [c] and whether its receiver is alive, after
    the steps of a trace. *)
Definition chan_state (tr : list event) (c : chan_id) : option (nat * bool) :=
  fold_left (fun st e =>
    match e with
    | EvChannel c' n => if chan_id_eqb c c' then Some (n, true) else st
    | EvDropReceiver c' =>
        if chan_id_eqb c c' then option_map (fun p => (fst p, false)) st else st
    | _ => st
    end) tr None.

(** ** IPFIX data-record decoding

    Modelled from the spec: the decoding actor ([actor::ipfix], not part
    of the sources) is described in the spec, sections 3 and 4.2 and the
    "decode correctness" property of section 8: each FieldSpec of the
    template, in order, consumes [byte_length] bytes (or, for the
    variable-length sentinel 65535, a one-byte length, or 255 followed by
    a two-byte length, then that many bytes); the bytes are read as an
    unsigned integer in network byte order and bound to the field's SAI
    counter name.  A record shorter than the template is dropped with one
    diagnostic; a Data Set of concatenated records yields one
    StatisticsRecord per record. *)

Module Ipfix.

Record FieldSpec : Type := mkFieldSpec {
  information_element_id : N;
  byte_length : N;
  sai_counter_name : string
}.

Record Template : Type := mkTemplate {
  observation_domain : N;
  template_id : N;
  revision : N;
  fields : list FieldSpec
}.

(** Header fields of the frame a Data Set comes from. *)
Record FrameHeader : Type := mkFrameHeader {
  export_time : N;
  sequence_number : N;
  header_observation_domain : N
}.

Record StatisticsRecord : Type := mkStatisticsRecord {
  sr_observation_domain : N;
  sr_template_id : N;
  sr_template_revision : N;
  sr_export_time : N;
  sr_sequence_number : N;
  counters : list (string * N)
}.

Definition VARIABLE_LENGTH : N := 65535.

(** Network byte order. *)
Definition be_value (bs : list Byte.byte) : N :=
  fold_left (fun acc b => acc * 256 + Byte.to_N b)%N bs 0%N.

Definition take_value (n : N) (bs : list Byte.byte) : option (N * list Byte.byte) :=
  if (N.of_nat (length bs) <? n)%N then None
  else Some (be_value (firstn (N.to_nat n) bs), skipn (N.to_nat n) bs).

Definition decode_field (f : FieldSpec) (bs : list Byte.byte)
    : option (N * list Byte.byte) :=
  if N.eqb (byte_length f) VARIABLE_LENGTH then
    match bs with
    | [] => None
    | b :: rest =>
        if (Byte.to_N b <? 255)%N then take_value (Byte.to_N b) rest
        else match rest with
             | b1 :: b2 :: rest' => take_value (be_value [b1; b2]) rest'
             | _ => None
             end
    end
  else take_value (byte_length f) bs.

Fixpoint decode_record (fs : list FieldSpec) (bs : list Byte.byte)
    : option (list (string * N) * list Byte.byte) :=
  match fs with
  | [] => Some ([], bs)
  | f :: fs' =>
      match decode_field f bs with
      | None => None
      | Some (v, rest) =>
          match decode_record fs' rest with
          | None => None
          | Some (cs, rest') => Some ((sai_counter_name f, v) :: cs, rest')
          end
      end
  end.

(** Records of a Data Set and the number of diagnostics emitted. *)
Fixpoint decode_records (fuel : nat) (h : FrameHeader) (t : Template)
    (bs : list Byte.byte) : list StatisticsRecord * nat :=
  match fuel, bs with
  | _, [] => ([], 0)
  | O, _ => ([], 1)
  | S fuel', _ =>
      match decode_record (fields t) bs with
      | None => ([], 1)
      | Some (cs, rest) =>
          let r := mkStatisticsRecord (header_observation_domain h) (template_id t)
                     (revision t) (export_time h) (sequence_number h) cs in
          let (rs, d) := decode_records fuel' h t rest in (r :: rs, d)
      end
  end.

Definition decode_data_set (h : FrameHeader) (t : Template) (bs : list Byte.byte)
    : list StatisticsRecord * nat :=
  decode_records (length bs) h t bs.

End Ipfix.

(** ** Views of a trace *)

(** The actors spawned, and the handles awaited, in trace order. *)
Definition spawns_of (tr : list event) : list actor :=
  flat_map (fun e => match e with EvSpawn a => [a] | _ => [] end) tr.

Definition joins_of (tr : list event) : list actor :=
  flat_map (fun e => match e with EvJoin a => [a] | _ => [] end) tr.

(** No recipient is registered on an actor after its task is spawned. *)
Fixpoint no_recipient_after_spawn (tr : list event) : Prop :=
  match tr with
  | [] => True
  | EvSpawn a :: rest =>
      (forall c, ~ In (EvAddRecipient a c) rest) /\ no_recipient_after_spawn rest
  | _ :: rest => no_recipient_after_spawn rest
  end.

(** ** Concrete inputs *)

(** ASCII case mapping, an instance of [str::to_lowercase] on ASCII input. *)
Fixpoint ascii_lowercase (s : string) : string :=
  match s with
  | EmptyString => EmptyString
  | String c rest =>
      let n := Ascii.nat_of_ascii c in
      String (if Nat.leb 65 n && Nat.leb n 90 then Ascii.ascii_of_nat (n + 32) else c)
             (ascii_lowercase rest)
  end.

(** The clap defaults, with reporting switched on or off. *)
Definition default_args (enable : bool) : Args :=
  {| enable_stats := enable; stats_interval := 10; detailed_stats := true;
     max_stats_per_report := 20; log_level := "info"; log_format := "full" |}.

(** A run in which the ipfix and swss tasks panic. *)
Definition env_two_panics : Env :=
  {| genl_family_group := ("sonic_stel", "ipfix");
     swss_new := Ok tt;
     outcome := fun a => match a with
                         | Ipfix => RunPanicked "ipfix"
                         | Swss => RunPanicked "swss"
                         | _ => RunReturned
                         end |}.

(** A run in which every task returns. *)
Definition env_clean : Env :=
  {| genl_family_group := ("sonic_stel", "ipfix");
     swss_new := Ok tt;
     outcome := fun _ => RunReturned |}.

(** A run in which [SwssActor::new] fails. *)
Definition env_swss_fails : Env :=
  {| genl_family_group := ("sonic_stel", "ipfix");
     swss_new := Err "connection refused";
     outcome := fun _ => RunReturned |}.

(** * Properties *)

Open Scope list_scope.

(** ** [init_logging] never returns early *)

Lemma init_logging_cont lower l f :
  init_logging lower l f = (fst (init_logging lower l f), Cont tt).
Proof.
  unfold init_logging.
  repeat (destruct (String.eqb _ _)); reflexivity.
Qed.

Lemma init_logging_events lower l f e :
  In e (fst (init_logging lower l f)) ->
  (exists w v, e = EvEprint w v) \/ (exists lv fm, e = EvLoggerInit lv fm).
Proof.
  unfold init_logging.
  repeat (destruct (String.eqb _ _)); simpl;
    intros H; repeat destruct H as [H | H]; subst; eauto; contradiction.
Qed.

(** [main] is [init_logging] followed by the coordinator. *)
Lemma run_main_split lower args env :
  run_main lower args env =
  (fst (init_logging lower (log_level args) (log_format args))
     ++ fst (coordinator_run args env),
   snd (coordinator_run args env))%list.
Proof.
  unfold run_main, main_body, coordinator_run.
  rewrite init_logging_cont; simpl.
  destruct (coordinator_body args env) as [tr [r | r]]; reflexivity.
Qed.

Lemma main_result_coordinator lower args env :
  main_result lower args env = snd (coordinator_run args env).
Proof. unfold main_result. rewrite run_main_split. reflexivity. Qed.

Lemma main_trace_coordinator lower args env :
  main_trace lower args env =
  (fst (init_logging lower (log_level args) (log_format args))
     ++ fst (coordinator_run args env))%list.
Proof. unfold main_trace. rewrite run_main_split. reflexivity. Qed.

(** Computing the coordinator on symbolic arguments: only the branches of
    [main] remain. *)
Ltac coordinator_cases :=
  match goal with
  | args : Args |- _ => destruct args as [en si ds ms ll lf]
  end;
  match goal with
  | env : Env |- _ => destruct env as [[fam grp] sw out]
  end;
  unfold coordinator_run, coordinator_body in *; simpl in *;
  unfold join_result in *; simpl in *.

(** Splitting on the outcomes of the joined tasks. *)
Ltac outcome_cases :=
  repeat match goal with
         | |- context [match ?o ?a with RunReturned => _ | RunPanicked _ => _ end] =>
             destruct (o a)
         end.

Lemma channels_created_app l1 l2 :
  channels_created (l1 ++ l2) = (channels_created l1 ++ channels_created l2)%list.
Proof. unfold channels_created. apply flat_map_app. Qed.

Lemma channels_created_init lower l f :
  channels_created (fst (init_logging lower l f)) = [].
Proof.
  unfold init_logging.
  repeat (destruct (String.eqb _ _)); reflexivity.
Qed.

(** C4: [main] creates the command, socket and template channels with
    capacity 1 and the statistics channel with capacity 100, and no other
    channel. *)
Theorem channel_capacities lower args env :
  channels_created (main_trace lower args env) =
  [(CommandCh, 1); (SocketCh, 1); (TemplateCh, 1); (SaiStatsCh, 100)].
Proof.
  rewrite main_trace_coordinator, channels_created_app, channels_created_init.
  coordinator_cases.
  destruct en, sw; simpl; outcome_cases; reflexivity.
Qed.

(** ** Exit status *)

(** C1: When the tasks of several actors fail, [main] returns the [JoinError]
    of the failing actor that comes first in the order netlink, ipfix,
    swss, stats reporter. *)
Theorem main_error_priority lower args env a e :
  swss_new env = Ok tt ->
  In a (spawned_actors args) ->
  join_result env a = Err e ->
  (forall b, In b (spawned_actors args) -> priority b < priority a ->
             join_result env b = Ok tt) ->
  main_result lower args env = Err (ErrJoin e).
Proof.
  intros Hsw Hin Ha Hhi.
  rewrite main_result_coordinator.
  assert (HN := Hhi Netlink). assert (HI := Hhi Ipfix). assert (HS := Hhi Swss).
  clear Hhi. unfold spawned_actors in *.
  coordinator_cases. subst sw.
  destruct en, a; simpl in *;
    repeat match goal with
           | H : _ -> _ -> _ |- _ =>
               first [ specialize (H ltac:(tauto) ltac:(lia)) | clear H ]
           end;
    outcome_cases; simpl in *; first [ congruence | intuition discriminate ].
Qed.

(** C2: [main] returns [Ok(())] exactly when [SwssActor::new] succeeded and
    every spawned task finished without error. *)
Theorem main_ok_iff_all_clean lower args env :
  main_result lower args env = Ok tt <->
  swss_new env = Ok tt /\
  Forall (fun a => join_result env a = Ok tt) (spawned_actors args).
Proof.
  rewrite main_result_coordinator. unfold spawned_actors.
  coordinator_cases.
  destruct en; simpl; rewrite ?Forall_cons_iff, ?Forall_nil_iff;
    destruct sw as [[] | err]; simpl; outcome_cases; simpl; intuition congruence.
Qed.

(** ** Ordering of the coordinator's steps *)

Ltac in_list := simpl; repeat (first [ left; reflexivity | right ]).

Lemma init_logging_no_spawn lower l f a :
  ~ In (EvSpawn a) (fst (init_logging lower l f)).
Proof.
  intros H. apply init_logging_events in H.
  destruct H as [[w [v H]] | [lv [fm H]]]; discriminate H.
Qed.

Lemma chan_state_init lower l f tr c :
  chan_state (fst (init_logging lower l f) ++ tr) c = chan_state tr c.
Proof.
  unfold chan_state. rewrite fold_left_app.
  unfold init_logging.
  repeat (destruct (String.eqb _ _)); reflexivity.
Qed.

(** Every [EvSpawn a] of a trace is followed by an [EvJoin a]. *)
Fixpoint spawns_joined (tr : list event) : Prop :=
  match tr with
  | [] => True
  | EvSpawn a :: rest => In (EvJoin a) rest /\ spawns_joined rest
  | _ :: rest => spawns_joined rest
  end.

Lemma spawns_joined_split tr a :
  spawns_joined tr -> In (EvSpawn a) tr ->
  exists l1 l2, tr = l1 ++ EvSpawn a :: l2 /\ In (EvJoin a) l2.
Proof.
  induction tr as [| e rest IH]; simpl; [tauto |].
  intros Hj [He | Hin].
  - subst e. exists [], rest. simpl. split; [reflexivity | tauto].
  - assert (Hr : spawns_joined rest) by (destruct e; tauto).
    destruct (IH Hr Hin) as [l1 [l2 [-> Hl2]]].
    exists (e :: l1), l2. split; [reflexivity | exact Hl2].
Qed.

Lemma spawns_joined_app l1 l2 :
  (forall a, ~ In (EvSpawn a) l1) -> spawns_joined l2 -> spawns_joined (l1 ++ l2).
Proof.
  induction l1 as [| e rest IH]; simpl; intros Hn Hj; [exact Hj |].
  destruct e; try (apply IH; [intros b Hb; apply (Hn b); right; exact Hb | exact Hj]).
  exfalso. apply (Hn a). left. reflexivity.
Qed.

(** C3: With reporting disabled, the receiver of the statistics channel is
    dropped before any task is spawned, no reporter is built or spawned,
    sends on the closed channel never wait, and [main] returns [Ok(())]
    when the three other tasks finish cleanly. *)
Theorem stats_disabled_channel_closed lower args env :
  enable_stats args = false ->
  swss_new env = Ok tt ->
  (exists pre post, main_trace lower args env = pre ++ post /\
     In (EvDropReceiver SaiStatsCh) pre /\ (forall a, ~ In (EvSpawn a) pre)) /\
  ~ In (EvSpawn Reporter) (main_trace lower args env) /\
  (forall cfg, ~ In (EvNewReporter cfg) (main_trace lower args env)) /\
  (exists cap, chan_state (main_trace lower args env) SaiStatsCh = Some (cap, false) /\
     forall (Msg : Type) (q ms : list Msg),
       Forall (fun o => o <> Pending) (send_all Msg (mkChan cap q false) ms)) /\
  (join_result env Netlink = Ok tt -> join_result env Ipfix = Ok tt ->
   join_result env Swss = Ok tt -> main_result lower args env = Ok tt).
Proof.
  intros Hen Hsw.
  assert (Hsend : forall (Msg : Type) (q ms : list Msg),
             Forall (fun o => o <> Pending) (send_all Msg (mkChan 100 q false) ms)).
  { intros Msg q ms. induction ms as [| m ms IH]; simpl; constructor; auto; discriminate. }
  rewrite main_result_coordinator, main_trace_coordinator.
  pose proof (init_logging_no_spawn lower (log_level args) (log_format args)) as Hinit.
  pose proof (init_logging_events lower (log_level args) (log_format args)) as Hlogs.
  pose proof (chan_state_init lower (log_level args) (log_format args)) as Hchan.
  set (itr := fst (init_logging lower (log_level args) (log_format args))) in *.
  coordinator_cases. subst en sw. simpl.
  outcome_cases; simpl; (split; [| split; [| split; [| split]]]).
  all: lazymatch goal with
       | |- exists pre post, ?i ++ ?l = pre ++ post /\ _ =>
           exists (i ++ firstn 13 l), (skipn 13 l);
           split; [rewrite <- app_assoc, firstn_skipn; reflexivity |];
           split; [apply in_or_app; right; in_list |];
           intros a Ha; apply in_app_iff in Ha; destruct Ha as [Ha | Ha];
             [exact (Hinit a Ha) | simpl in Ha; intuition discriminate]
       | |- ~ In _ _ =>
           intros Ha; apply in_app_iff in Ha; destruct Ha as [Ha | Ha];
             [exact (Hinit _ Ha) | simpl in Ha; intuition discriminate]
       | |- forall cfg, ~ In _ _ =>
           intros cfg Ha; apply in_app_iff in Ha; destruct Ha as [Ha | Ha];
             [destruct (Hlogs _ Ha) as [[w [v Hw]] | [lv [fm Hw]]]; discriminate Hw
             | simpl in Ha; intuition discriminate]
       | |- exists cap, _ =>
           exists 100; split; [rewrite Hchan; reflexivity | exact Hsend]
       | |- _ =>
           intros H1 H2 H3;
           first [ reflexivity | discriminate H1 | discriminate H2 | discriminate H3 ]
       end.
Qed.

(** ** Start-up *)

(** C5: With reporting enabled, the reporter is built with no limit when
    [max_stats_per_report] is 0 and with the limit [n] for any other
    [n]. *)
Theorem reporter_max_stats_translation lower args env :
  enable_stats args = true ->
  swss_new env = Ok tt ->
  exists cfg, In (EvNewReporter cfg) (main_trace lower args env) /\
    (max_stats_per_report args = 0%N -> cfg_max_stats_per_report cfg = None) /\
    (max_stats_per_report args <> 0%N ->
     cfg_max_stats_per_report cfg = Some (max_stats_per_report args)).
Proof.
  intros Hen Hsw.
  exists (reporter_config args).
  split.
  - rewrite main_trace_coordinator. apply in_or_app. right.
    coordinator_cases. subst en sw. simpl. outcome_cases; in_list.
  - unfold reporter_config. simpl.
    split; intros H; [rewrite H; reflexivity |].
    apply N.eqb_neq in H. rewrite H. reflexivity.
Qed.

(** C6: When [SwssActor::new] fails, [main] returns that error and has
    spawned no task. *)
Theorem swss_init_error_before_spawn lower args env e :
  swss_new env = Err e ->
  main_result lower args env = Err (ErrSwssInit e) /\
  (forall a, ~ In (EvSpawn a) (main_trace lower args env)).
Proof.
  intros Hsw.
  rewrite main_result_coordinator, main_trace_coordinator.
  pose proof (init_logging_no_spawn lower (log_level args) (log_format args)) as Hinit.
  set (itr := fst (init_logging lower (log_level args) (log_format args))) in *.
  coordinator_cases. subst sw.
  destruct en; simpl; (split; [reflexivity |]);
    intros a Ha; apply in_app_iff in Ha; destruct Ha as [Ha | Ha];
    [exact (Hinit a Ha) | simpl in Ha; intuition discriminate |
     exact (Hinit a Ha) | simpl in Ha; intuition discriminate].
Qed.

(** C7: Every task [main] spawns is joined later in the run: [main] returns
    only after awaiting all of them. *)
Theorem spawned_tasks_joined lower args env a :
  In (EvSpawn a) (main_trace lower args env) ->
  exists l1 l2, main_trace lower args env = l1 ++ EvSpawn a :: l2 /\
                In (EvJoin a) l2.
Proof.
  apply spawns_joined_split.
  rewrite main_trace_coordinator.
  apply spawns_joined_app; [apply init_logging_no_spawn |].
  coordinator_cases.
  destruct en, sw; simpl; outcome_cases; simpl;
    repeat split; in_list.
Qed.

(** C9: A log level whose lowercase form is none of the five names selects
    [Info]; [init_logging] then returns normally and [main] goes on with
    the coordinator, which does not read the log level. *)
Theorem invalid_log_level_falls_back_to_info lower args env :
  ~ In (lower (log_level args)) ["trace"; "debug"; "info"; "warn"; "error"] ->
  exists tr fmt,
    init_logging lower (log_level args) (log_format args) = (tr, Cont tt) /\
    In (EvEprint "Invalid log level" (log_level args)) tr /\
    In (EvLoggerInit LInfo fmt) tr /\
    run_main lower args env = (tr ++ fst (coordinator_run args env),
                               snd (coordinator_run args env)) /\
    coordinator_run args env =
      coordinator_run {| enable_stats := enable_stats args;
                         stats_interval := stats_interval args;
                         detailed_stats := detailed_stats args;
                         max_stats_per_report := max_stats_per_report args;
                         log_level := "info";
                         log_format := log_format args |} env.
Proof.
  intros Hlvl.
  assert (Hne : forall s, In s ["trace"; "debug"; "info"; "warn"; "error"] ->
                          String.eqb (lower (log_level args)) s = false).
  { intros s Hs. apply String.eqb_neq. intros Heq. apply Hlvl. rewrite Heq. exact Hs. }
  assert (Hil : exists fmt ws,
             init_logging lower (log_level args) (log_format args) =
             (EvEprint "Invalid log level" (log_level args) :: ws
                ++ [EvLoggerInit LInfo fmt], Cont tt)).
  { unfold init_logging.
    rewrite (Hne "trace"), (Hne "debug"), (Hne "info"), (Hne "warn"), (Hne "error")
      by in_list.
    simpl.
    destruct (String.eqb (lower (log_format args)) "simple");
      [exists FormatSimple, [] | destruct (String.eqb (lower (log_format args)) "full");
        [exists FormatFull, [] |
         exists FormatFull, [EvEprint "Invalid log format" (log_format args)]]];
      reflexivity. }
  destruct Hil as [fmt [ws Hil]].
  exists (EvEprint "Invalid log level" (log_level args) :: ws ++ [EvLoggerInit LInfo fmt]), fmt.
  split; [exact Hil |].
  split; [left; reflexivity |].
  split; [right; apply in_or_app; right; left; reflexivity |].
  split; [rewrite run_main_split, Hil; reflexivity |].
  destruct args; reflexivity.
Qed.

(** C10: With reporting disabled, the interval, the detail flag and the
    record limit do not influence [main]: same trace, same result. *)
Theorem stats_args_irrelevant_when_disabled lower args1 args2 env :
  enable_stats args1 = false ->
  enable_stats args2 = false ->
  log_level args1 = log_level args2 ->
  log_format args1 = log_format args2 ->
  run_main lower args1 env = run_main lower args2 env.
Proof.
  destruct args1 as [en1 si1 ds1 ms1 ll1 lf1], args2 as [en2 si2 ds2 ms2 ll2 lf2];
    simpl; intros -> -> -> ->.
  reflexivity.
Qed.

(** C8: Decoding the Data Set [00 00 00 05 00 00 00 07] with the template
    [rx_bytes] (4 bytes), [tx_bytes] (4 bytes) yields one record with
    counters [rx_bytes = 5] and [tx_bytes = 7], and no diagnostic. *)
Theorem decode_rx_tx_bytes h od tid rev :
  Ipfix.decode_data_set h
    (Ipfix.mkTemplate od tid rev
       [Ipfix.mkFieldSpec 1 4 "rx_bytes"; Ipfix.mkFieldSpec 2 4 "tx_bytes"])
    [Byte.x00; Byte.x00; Byte.x00; Byte.x05; Byte.x00; Byte.x00; Byte.x00; Byte.x07] =
  ([Ipfix.mkStatisticsRecord (Ipfix.header_observation_domain h) tid rev
      (Ipfix.export_time h) (Ipfix.sequence_number h)
      [("rx_bytes", 5%N); ("tx_bytes", 7%N)]], 0).
Proof. reflexivity. Qed.

(** ** [init_logging] *)

(** X1: each of the five level names, in any case the lowercasing maps to
    it, selects its own [LevelFilter], without a warning. *)
Theorem init_logging_known_level lower l f name lvl :
  In (name, lvl) [("trace", LTrace); ("debug", LDebug); ("info", LInfo);
                  ("warn", LWarn); ("error", LError)] ->
  lower l = name ->
  exists tr fmt, init_logging lower l f = (tr, Cont tt) /\
    In (EvLoggerInit lvl fmt) tr /\
    ~ In (EvEprint "Invalid log level" l) tr.
Proof.
  intros Hin Hl. unfold init_logging. rewrite Hl.
  simpl in Hin.
  repeat destruct Hin as [Hin | Hin]; try contradiction; injection Hin as <- <-;
    simpl;
    (destruct (String.eqb (lower f) "simple");
     [| destruct (String.eqb (lower f) "full")]); simpl;
    eexists; eexists; (split; [reflexivity |]);
    (split; [in_list | simpl; intuition discriminate]).
Qed.

(** X2: the format is [simple] exactly when the lowercased format string
    is "simple"; a string that is neither "simple" nor "full" gives the
    full format and exactly then a warning. *)
Theorem init_logging_format lower l f :
  exists tr lvl fmt, init_logging lower l f = (tr, Cont tt) /\
    In (EvLoggerInit lvl fmt) tr /\
    (fmt = FormatSimple <-> lower f = "simple") /\
    (In (EvEprint "Invalid log format" f) tr <->
     lower f <> "simple" /\ lower f <> "full").
Proof.
  unfold init_logging.
  (destruct (String.eqb (lower l) "trace"); [| destruct (String.eqb (lower l) "debug");
    [| destruct (String.eqb (lower l) "info"); [| destruct (String.eqb (lower l) "warn");
    [| destruct (String.eqb (lower l) "error")]]]]);
  simpl;
  (destruct (String.eqb_spec (lower f) "simple") as [Hs | Hs];
   [| destruct (String.eqb_spec (lower f) "full") as [Hf | Hf]]); simpl;
  eexists; eexists; eexists; (split; [reflexivity |]);
  (split; [in_list |]);
  (split; [split; intros H; first [ reflexivity | discriminate | congruence ] |]);
  simpl; intuition (try discriminate; try congruence).
Qed.

(** X3: [init_logging] installs the logger exactly once, as its last
    step, after at most two warnings on standard error. *)
Theorem init_logging_installs_once lower l f :
  exists ws lvl fmt,
    init_logging lower l f = (ws ++ [EvLoggerInit lvl fmt], Cont tt) /\
    Forall (fun e => exists w v, e = EvEprint w v) ws /\
    length ws <= 2.
Proof.
  unfold init_logging.
  (destruct (String.eqb (lower l) "trace"); [| destruct (String.eqb (lower l) "debug");
    [| destruct (String.eqb (lower l) "info"); [| destruct (String.eqb (lower l) "warn");
    [| destruct (String.eqb (lower l) "error")]]]]);
  simpl;
  (destruct (String.eqb (lower f) "simple");
   [| destruct (String.eqb (lower f) "full")]); simpl;
  let finish := eexists; eexists; (split; [reflexivity |]);
                (split; [repeat constructor; eauto | simpl; lia]) in
  first [ exists []; finish
        | exists [EvEprint "Invalid log level" l]; finish
        | exists [EvEprint "Invalid log format" f]; finish
        | exists [EvEprint "Invalid log level" l; EvEprint "Invalid log format" f]; finish ].
Qed.

(** ** More on [main] *)

Lemma init_logging_trace_shape lower l f :
  spawns_of (fst (init_logging lower l f)) = [] /\
  joins_of (fst (init_logging lower l f)) = [] /\
  no_recipient_after_spawn (fst (init_logging lower l f)).
Proof.
  unfold init_logging.
  repeat (destruct (String.eqb _ _)); simpl; tauto.
Qed.

Lemma no_recipient_after_spawn_app l1 l2 :
  (forall a, ~ In (EvSpawn a) l1) ->
  no_recipient_after_spawn l2 -> no_recipient_after_spawn (l1 ++ l2).
Proof.
  induction l1 as [| e rest IH]; simpl; intros Hn Hj; [exact Hj |].
  destruct e; try (apply IH; [intros b Hb; apply (Hn b); right; exact Hb | exact Hj]).
  exfalso. apply (Hn a). left. reflexivity.
Qed.

Lemma no_recipient_after_spawn_split tr l1 l2 a c :
  no_recipient_after_spawn tr -> tr = l1 ++ EvSpawn a :: l2 ->
  ~ In (EvAddRecipient a c) l2.
Proof.
  revert tr. induction l1 as [| e rest IH]; intros tr Hn ->; simpl in Hn.
  - exact (proj1 Hn c).
  - apply (IH (rest ++ EvSpawn a :: l2)); [| reflexivity].
    destruct e; tauto.
Qed.

(** X4: [main] spawns netlink, ipfix, swss and, when reporting is on, the
    stats reporter, each once and in that order, and awaits their handles
    in the same order; when [SwssActor::new] fails it spawns and awaits
    nothing. *)
Theorem spawn_and_join_order lower args env :
  spawns_of (main_trace lower args env) =
    (match swss_new env with Ok _ => spawned_actors args | Err _ => [] end) /\
  joins_of (main_trace lower args env) =
    (match swss_new env with Ok _ => spawned_actors args | Err _ => [] end).
Proof.
  rewrite main_trace_coordinator.
  unfold spawns_of, joins_of. rewrite !flat_map_app.
  destruct (init_logging_trace_shape lower (log_level args) (log_format args))
    as [Hs [Hj _]].
  unfold spawns_of, joins_of in Hs, Hj. rewrite Hs, Hj. simpl.
  unfold spawned_actors.
  coordinator_cases.
  destruct en, sw; simpl; outcome_cases; split; reflexivity.
Qed.

(** X5: every fan-out recipient ([add_recipient]) is registered before
    the actor's task is spawned: no [add_recipient] on an actor follows
    its spawn. *)
Theorem recipients_registered_before_spawn lower args env l1 l2 a c :
  main_trace lower args env = l1 ++ EvSpawn a :: l2 ->
  ~ In (EvAddRecipient a c) l2.
Proof.
  apply no_recipient_after_spawn_split.
  rewrite main_trace_coordinator.
  apply no_recipient_after_spawn_app; [apply init_logging_no_spawn |].
  coordinator_cases.
  destruct en, sw; simpl; outcome_cases; simpl;
    repeat split; intros c' H; simpl in H; intuition discriminate.
Qed.

(** X6: with reporting disabled, how the stats reporter's task would end
    does not matter: two environments that differ only there give the same
    run. *)
Theorem reporter_outcome_irrelevant_when_disabled lower args env1 env2 :
  enable_stats args = false ->
  genl_family_group env1 = genl_family_group env2 ->
  swss_new env1 = swss_new env2 ->
  outcome env1 Netlink = outcome env2 Netlink ->
  outcome env1 Ipfix = outcome env2 Ipfix ->
  outcome env1 Swss = outcome env2 Swss ->
  run_main lower args env1 = run_main lower args env2.
Proof.
  intros Hen Hg Hs HN HI HS.
  rewrite !run_main_split.
  destruct args as [en si ds ms ll lf]; simpl in Hen; subst en.
  destruct env1 as [[f1 g1] sw1 o1], env2 as [[f2 g2] sw2 o2]; simpl in *.
  injection Hg as -> ->. subst sw2.
  unfold coordinator_run, coordinator_body; simpl.
  unfold join_result; simpl. rewrite HN, HI, HS. reflexivity.
Qed.

(** X7: once the actors are spawned, [main]'s last step logs its outcome:
    "all actors completed" when it returns [Ok(())], or an error naming
    the failing actor, which is one of the spawned ones and the task of
    the returned [JoinError]. *)
Theorem final_log_matches_result lower args env :
  swss_new env = Ok tt ->
  exists pre last, main_trace lower args env = pre ++ [last] /\
    ((main_result lower args env = Ok tt /\
      last = EvLog LInfo (if enable_stats args then MAllOk else MAllOkNoStats)) \/
     (exists e, main_result lower args env = Err (ErrJoin e) /\
      In (je_task e) (spawned_actors args) /\
      last = EvLog LError (MActorFailed (je_task e) e))).
Proof.
  intros Hsw.
  rewrite main_result_coordinator, main_trace_coordinator.
  set (itr := fst (init_logging lower (log_level args) (log_format args))).
  unfold spawned_actors.
  coordinator_cases. subst sw.
  destruct en; simpl; outcome_cases; simpl;
    lazymatch goal with
    | |- exists pre last, ?i ++ ?l = pre ++ [last] /\ _ =>
        exists (i ++ removelast l), (List.last l EvNewIpfix);
        split; [rewrite <- app_assoc; reflexivity |]; simpl
    end;
    first [ left; split; reflexivity
          | right; eexists; split; [reflexivity | split; [in_list | reflexivity]] ].
Qed.

(** X8: when [SwssActor::new] fails, [main] logs that error as its last
    step; by then it has built no stats reporter and awaited no task. *)
Theorem swss_init_error_logged_last lower args env e :
  swss_new env = Err e ->
  exists pre, main_trace lower args env = pre ++ [EvLog LError (MSwssInitFailed e)] /\
    (forall cfg, ~ In (EvNewReporter cfg) pre) /\
    (forall a, ~ In (EvJoin a) pre).
Proof.
  intros Hsw.
  rewrite main_trace_coordinator.
  pose proof (init_logging_events lower (log_level args) (log_format args)) as Hlogs.
  set (itr := fst (init_logging lower (log_level args) (log_format args))) in *.
  coordinator_cases. subst sw.
  destruct en; simpl;
    lazymatch goal with
    | |- exists pre, ?i ++ ?l = pre ++ [_] /\ _ =>
        exists (i ++ removelast l);
        split; [rewrite <- app_assoc; reflexivity |]
    end;
    split; intros x Hx; apply in_app_iff in Hx; destruct Hx as [Hx | Hx];
    try (destruct (Hlogs _ Hx) as [[w [v Hw]] | [lv [fm Hw]]]; discriminate Hw);
    simpl in Hx; intuition discriminate.
Qed.


Lemma init_logging_no_log lower l f lv m :
  ~ In (EvLog lv m) (fst (init_logging lower l f)).
Proof.
  intros H. apply init_logging_events in H.
  destruct H as [[w [v H]] | [lv' [fm H]]]; discriminate H.
Qed.

(** X10: the reporting interval, detail flag and record limit are logged
    (each with its argument's value) exactly when reporting is enabled. *)
Theorem stats_settings_logged_iff_enabled lower args env :
  (forall n, In (EvLog LInfo (MStatsInterval n)) (main_trace lower args env) <->
             enable_stats args = true /\ n = stats_interval args) /\
  (forall b, In (EvLog LInfo (MDetailedStats b)) (main_trace lower args env) <->
             enable_stats args = true /\ b = detailed_stats args) /\
  (forall n, In (EvLog LInfo (MMaxStats n)) (main_trace lower args env) <->
             enable_stats args = true /\ n = max_stats_per_report args).
Proof.
  rewrite main_trace_coordinator.
  pose proof (init_logging_no_log lower (log_level args) (log_format args)) as Hno.
  set (itr := fst (init_logging lower (log_level args) (log_format args))) in *.
  coordinator_cases.
  destruct en, sw; simpl; outcome_cases;
    (split; [| split]); intros x; rewrite in_app_iff; simpl;
    (split; [intros [H | H]; [exfalso; exact (Hno _ _ H) |]
            | intros [Hen Hx]; right ]);
    first [ discriminate
          | intuition (try discriminate; try congruence)
          | subst x; in_list ].
Qed.

(** ** Witnesses *)

Lemma main_error_priority_witness :
  main_result ascii_lowercase (default_args true) env_two_panics =
  Err (ErrJoin (mkJoinError Ipfix "ipfix")).
Proof.
  apply (main_error_priority ascii_lowercase (default_args true) env_two_panics
           Ipfix (mkJoinError Ipfix "ipfix")).
  - reflexivity.
  - in_list.
  - reflexivity.
  - intros b _ Hp. destruct b; simpl in Hp; try lia; reflexivity.
Defined.

Lemma stats_disabled_channel_closed_witness :
  enable_stats (default_args false) = false /\ swss_new env_clean = Ok tt /\
  main_result ascii_lowercase (default_args false) env_clean = Ok tt.
Proof.
  split; [reflexivity | split; [reflexivity |]].
  apply (stats_disabled_channel_closed ascii_lowercase (default_args false) env_clean);
    reflexivity.
Defined.

Lemma reporter_max_stats_translation_witness :
  exists cfg, In (EvNewReporter cfg)
                 (main_trace ascii_lowercase (default_args true) env_clean) /\
    (max_stats_per_report (default_args true) = 0%N ->
     cfg_max_stats_per_report cfg = None) /\
    (max_stats_per_report (default_args true) <> 0%N ->
     cfg_max_stats_per_report cfg = Some (max_stats_per_report (default_args true))).
Proof.
  apply (reporter_max_stats_translation ascii_lowercase (default_args true) env_clean);
    reflexivity.
Defined.

Lemma swss_init_error_before_spawn_witness :
  main_result ascii_lowercase (default_args true) env_swss_fails =
  Err (ErrSwssInit "connection refused").
Proof.
  apply (swss_init_error_before_spawn ascii_lowercase (default_args true) env_swss_fails
           "connection refused").
  reflexivity.
Defined.

Lemma spawned_tasks_joined_witness :
  exists l1 l2, main_trace ascii_lowercase (default_args true) env_clean =
                l1 ++ EvSpawn Reporter :: l2 /\ In (EvJoin Reporter) l2.
Proof.
  apply (spawned_tasks_joined ascii_lowercase (default_args true) env_clean Reporter).
  vm_compute. tauto.
Defined.

Lemma invalid_log_level_falls_back_to_info_witness :
  exists tr fmt,
    init_logging ascii_lowercase "Verbose" "full" = (tr, Cont tt) /\
    In (EvEprint "Invalid log level" "Verbose") tr /\
    In (EvLoggerInit LInfo fmt) tr /\
    run_main ascii_lowercase
      {| enable_stats := false; stats_interval := 10; detailed_stats := true;
         max_stats_per_report := 20; log_level := "Verbose"; log_format := "full" |}
      env_clean =
    (tr ++ fst (coordinator_run
                  {| enable_stats := false; stats_interval := 10; detailed_stats := true;
                     max_stats_per_report := 20; log_level := "Verbose";
                     log_format := "full" |} env_clean),
     snd (coordinator_run
            {| enable_stats := false; stats_interval := 10; detailed_stats := true;
               max_stats_per_report := 20; log_level := "Verbose";
               log_format := "full" |} env_clean)) /\
    coordinator_run
      {| enable_stats := false; stats_interval := 10; detailed_stats := true;
         max_stats_per_report := 20; log_level := "Verbose"; log_format := "full" |}
      env_clean =
    coordinator_run
      {| enable_stats := false; stats_interval := 10; detailed_stats := true;
         max_stats_per_report := 20; log_level := "info"; log_format := "full" |}
      env_clean.
Proof.
  apply (invalid_log_level_falls_back_to_info ascii_lowercase
           {| enable_stats := false; stats_interval := 10; detailed_stats := true;
              max_stats_per_report := 20; log_level := "Verbose";
              log_format := "full" |} env_clean).
  vm_compute. intuition discriminate.
Defined.

Lemma stats_args_irrelevant_when_disabled_witness :
  run_main ascii_lowercase (default_args false) env_two_panics =
  run_main ascii_lowercase
    {| enable_stats := false; stats_interval := 1; detailed_stats := false;
       max_stats_per_report := 0; log_level := "info"; log_format := "full" |}
    env_two_panics.
Proof.
  apply (stats_args_irrelevant_when_disabled ascii_lowercase (default_args false)
           {| enable_stats := false; stats_interval := 1; detailed_stats := false;
              max_stats_per_report := 0; log_level := "info"; log_format := "full" |}
           env_two_panics); reflexivity.
Defined.

Lemma init_logging_known_level_witness :
  exists tr fmt, init_logging ascii_lowercase "DEBUG" "simple" = (tr, Cont tt) /\
    In (EvLoggerInit LDebug fmt) tr /\
    ~ In (EvEprint "Invalid log level" "DEBUG") tr.
Proof.
  apply (init_logging_known_level ascii_lowercase "DEBUG" "simple" "debug" LDebug).
  - in_list.
  - reflexivity.
Defined.

Lemma recipients_registered_before_spawn_witness :
  ~ In (EvAddRecipient Netlink SocketCh)
       (skipn 19 (main_trace ascii_lowercase (default_args true) env_clean)).
Proof.
  apply (recipients_registered_before_spawn ascii_lowercase (default_args true) env_clean
           (firstn 18 (main_trace ascii_lowercase (default_args true) env_clean))
           (skipn 19 (main_trace ascii_lowercase (default_args true) env_clean))
           Netlink SocketCh).
  vm_compute. reflexivity.
Defined.

Lemma reporter_outcome_irrelevant_when_disabled_witness :
  run_main ascii_lowercase (default_args false) env_clean =
  run_main ascii_lowercase (default_args false)
    {| genl_family_group := ("sonic_stel", "ipfix");
       swss_new := Ok tt;
       outcome := fun a => match a with
                           | Reporter => RunPanicked "reporter"
                           | _ => RunReturned
                           end |}.
Proof.
  apply (reporter_outcome_irrelevant_when_disabled ascii_lowercase (default_args false));
    reflexivity.
Defined.

Lemma final_log_matches_result_witness :
  exists pre last, main_trace ascii_lowercase (default_args false) env_two_panics =
                   pre ++ [last] /\
    ((main_result ascii_lowercase (default_args false) env_two_panics = Ok tt /\
      last = EvLog LInfo MAllOkNoStats) \/
     (exists e, main_result ascii_lowercase (default_args false) env_two_panics =
                Err (ErrJoin e) /\
      In (je_task e) (spawned_actors (default_args false)) /\
      last = EvLog LError (MActorFailed (je_task e) e))).
Proof.
  apply (final_log_matches_result ascii_lowercase (default_args false) env_two_panics).
  reflexivity.
Defined.

Lemma swss_init_error_logged_last_witness :
  exists pre, main_trace ascii_lowercase (default_args false) env_swss_fails =
              pre ++ [EvLog LError (MSwssInitFailed "connection refused")] /\
    (forall cfg, ~ In (EvNewReporter cfg) pre) /\
    (forall a, ~ In (EvJoin a) pre).
Proof.
  apply (swss_init_error_logged_last ascii_lowercase (default_args false) env_swss_fails).
  reflexivity.
Defined.

